(** * The Stripe migration report collector (aa.py)

    aa.py is a straight-line script: it opens one report file for writing,
    walks a list of relative paths, and for each of them writes either the
    file's text, a read-error marker or a not-found marker, printing one
    progress line per path.

    The script is embedded as a program in a small state-and-exception
    monad.  The state holds what the script changes (the files it writes,
    the console, the filesystem calls it makes); the filesystem it only
    looks at is a read-only oracle.

    Conventions of the embedding.
    - A Python [str] is a Rocq [string] holding its UTF-8 bytes, so the
      decorative symbols of the console lines are the byte sequences of
      their encodings.
    - Files are text as Python's text layer sees it: decoding on read,
      encoding and newline translation on write are below the model.
    - An exception is represented by its string form [str(e)], which is all
      the script ever uses of it.  Only [Exception] subclasses are modelled.
    - Writing to an open handle and printing to the console never raise. *)

From Stdlib Require Import Ascii String.
From stdpp Require Import gmap strings list fin_maps.

Local Open Scope string_scope.

(** ** Text *)

(** The character written as a backslash followed by n in the Python source. *)
Definition nl : string := String "010"%char "".

(** Concatenation of a sequence of writes. *)
Definition flatten (chunks : list string) : string := foldr String.append "" chunks.

(** ** The Python runtime: outcomes, state, filesystem *)

Module Py.

(** A call either returns a value or raises; [Raised e] carries [str(e)]. *)
Inductive outcome (A : Type) : Type :=
| Returned (a : A)
| Raised (e : string).
Arguments Returned {A} a.
Arguments Raised {A} e.

(** The filesystem calls the script makes. *)
Inductive fs_call : Type :=
| CallExists (p : string)       (* os.path.exists(p) *)
| CallOpenRead (p : string)     (* open(p, "r", encoding="utf-8") *)
| CallOpenWrite (p : string).   (* open(p, "w", encoding="utf-8") *)

(** What a run changes.  [disk] maps the path of a file to the text it
    holds, for the files the script may overwrite; [console] lists the
    arguments of the [print] calls, oldest first; [calls] lists the
    filesystem calls, oldest first. *)
Record state : Type := State {
  disk : gmap string string;
  console : list string;
  calls : list fs_call
}.

(** What a run observes of the filesystem while the report is open.
    - [path_exists p] is the answer of [os.path.exists(p)];
    - [open_r_error p = Some msg] when [open(p, "r", encoding="utf-8")]
      raises an exception [e] with [str(e) = msg] (a directory, a
      permission error);
    - [read_error p = Some msg] when [infile.read()] raises (undecodable
      bytes, an I/O error, exhausted memory);
    - [file_text p] is the text stored at [p], which a complete read
      returns;
    - [open_w_error p = Some msg] when [open(p, "w", encoding="utf-8")]
      raises. *)
Record filesystem : Type := Filesystem {
  path_exists : string → bool;
  open_r_error : string → option string;
  read_error : string → option string;
  file_text : string → string;
  open_w_error : string → option string
}.

(** Programs. *)
Definition M (A : Type) : Type := state → outcome A * state.

(** Sequencing stops at the first exception.  These are the instances
    behind the notations [x ← m; k] and [m ;; k]. *)
#[export] Instance M_ret : MRet M := λ A a st, (Returned a, st).

#[export] Instance M_bind : MBind M :=
  λ A B k m st, match m st with
                | (Returned a, st') => k a st'
                | (Raised e, st') => (Raised e, st')
                end.

(** [try: body / except Exception as e: handler e]. *)
Definition try_except {A} (body : M A) (handler : string → M A) : M A :=
  λ st, match body st with
        | (Returned a, st') => (Returned a, st')
        | (Raised e, st') => handler e st'
        end.

(** [for x in l: body x]. *)
Fixpoint for_each {A} (l : list A) (body : A → M unit) : M unit :=
  match l with
  | [] => mret tt
  | x :: l' => body x ;; for_each l' body
  end.

Definition log (c : fs_call) (st : state) : state :=
  State (disk st) (console st) (calls st ++ [c]).

(** [print(s)]. *)
Definition print (s : string) : M unit :=
  λ st, (Returned tt, State (disk st) (console st ++ [s]) (calls st)).

Section Calls.
Variable fs : filesystem.

(** [os.path.exists(p)]: never raises. *)
Definition os_path_exists (p : string) : M bool :=
  λ st, (Returned (path_exists fs p), log (CallExists p) st).

(** [open(p, "w", encoding="utf-8")]: creates the file or truncates it;
    the handle is the path. *)
Definition open_w (p : string) : M string :=
  λ st, match open_w_error fs p with
        | Some msg => (Raised msg, log (CallOpenWrite p) st)
        | None =>
            (Returned p,
             State (<[p := ""]> (disk st)) (console st)
                   (calls st ++ [CallOpenWrite p]))
        end.

(** [open(p, "r", encoding="utf-8")]. *)
Definition open_r (p : string) : M string :=
  λ st, match open_r_error fs p with
        | Some msg => (Raised msg, log (CallOpenRead p) st)
        | None => (Returned p, log (CallOpenRead p) st)
        end.

(** [infile.read()]: the whole text, or an exception and no text. *)
Definition read (infile : string) : M string :=
  λ st, match read_error fs infile with
        | Some msg => (Raised msg, st)
        | None => (Returned (file_text fs infile), st)
        end.
End Calls.

(** [outfile.write(s)]: appends to the file behind the handle. *)
Definition write (outfile : string) (s : string) : M unit :=
  λ st, (Returned tt,
         State (alter (λ t, t +:+ s) outfile (disk st)) (console st) (calls st)).

End Py.

Import Py.

(** ** The script *)

(** The two literals at the top of the script, as one record. *)
Record config : Type := Config {
  project_root : string;
  files_to_collect : list string
}.

(** The configuration aa.py is shipped with. *)
Definition shipped : config :=
  {| project_root := "C:\Users\hanos\cb\backend";
     files_to_collect :=
       [ ".env";
         "package.json";
         "server.js";
         "controllers/auth.js";
         "controllers/cards.js";
         "controllers/payments.js";
         "controllers/subscriptions.js";
         "controllers/users.js";
         "lib/prismaClient.js";
         "middleware/requireAuth.js";
         "prisma/schema.prisma" ] |}.

(** One flavour of [os.path.join], that of posixpath, for two components. *)
Definition ends_with_sep (a : string) : bool :=
  match String.rev a with
  | String c _ => if decide (c = "/"%char) then true else false
  | EmptyString => false
  end.

Definition posix_join (a b : string) : string :=
  if String.prefix "/" b then b
  else if ends_with_sep a || bool_decide (a = "") then a +:+ b
  else a +:+ "/" +:+ b.

Section Collector.

(** [os.path.join] depends on the platform (ntpath or posixpath); the
    script is verified for any. *)
Variable os_path_join : string → string → string.
Variable cfg : config.
Variable fs : filesystem.

Definition output_file : string :=
  os_path_join (project_root cfg) "stripe_migration_report.txt".

(** Lines 26-40: the body of the loop. *)
Definition collect_one (outfile : string) (relative_path : string) : M unit :=
  let full_path := os_path_join (project_root cfg) relative_path in
  found ← os_path_exists fs full_path;
  if found : bool then
    write outfile (nl +:+ "--- " +:+ relative_path +:+ " ---" +:+ nl +:+ nl) ;;
    try_except
      (infile ← open_r fs full_path;
       content ← read fs infile;
       write outfile content)
      (λ e, write outfile ("[ERROR READING FILE]: " +:+ e +:+ nl)) ;;
    write outfile nl ;;
    print ("✅ Added: " +:+ relative_path)
  else
    write outfile (nl +:+ "--- " +:+ relative_path +:+ " ---" +:+ nl) ;;
    write outfile ("[FILE NOT FOUND]" +:+ nl +:+ nl) ;;
    print ("⚠️ Skipped (not found): " +:+ relative_path).

(** Lines 22-43: the script. *)
Definition main : M unit :=
  print "🔍 Starting file collection..." ;;
  (outfile ← open_w fs output_file;
   write outfile ("=== Stripe Migration Report ===" +:+ nl +:+ nl) ;;
   for_each (files_to_collect cfg) (collect_one outfile)) ;;
  print (nl +:+ "🎉 File collection complete!") ;;
  print ("   All contents saved to: " +:+ output_file).

End Collector.

(** ** What one run writes, as pure functions of the observations *)

(** The result of [open(p, "r", encoding="utf-8")] followed by
    [infile.read()], as the [try] block sees it. *)
Definition read_text (fs : filesystem) (p : string) : outcome string :=
  match open_r_error fs p with
  | Some msg => Raised msg
  | None =>
      match read_error fs p with
      | Some msg => Raised msg
      | None => Returned (file_text fs p)
      end
  end.

(** The three line shapes of a section. *)
Definition header_line (relative_path : string) : string :=
  "--- " +:+ relative_path +:+ " ---" +:+ nl.

Definition not_found_line : string := "[FILE NOT FOUND]" +:+ nl.

Definition error_line (description : string) : string :=
  "[ERROR READING FILE]: " +:+ description +:+ nl.

(** The two progress lines. *)
Definition added_notice (relative_path : string) : string :=
  "✅ Added: " +:+ relative_path.

Definition skipped_notice (relative_path : string) : string :=
  "⚠️ Skipped (not found): " +:+ relative_path.

Definition title : string := "=== Stripe Migration Report ===" +:+ nl +:+ nl.

Section Meaning.

Variable os_path_join : string → string → string.
Variable cfg : config.
Variable fs : filesystem.

Definition joined (relative_path : string) : string :=
  os_path_join (project_root cfg) relative_path.

(** What follows the header line of a section. *)
Definition section_body (relative_path : string) : string :=
  if path_exists fs (joined relative_path) then
    match read_text fs (joined relative_path) with
    | Returned content => nl +:+ content +:+ nl
    | Raised e => nl +:+ error_line e +:+ nl
    end
  else not_found_line +:+ nl.

(** Everything one iteration appends to the report. *)
Definition section_text (relative_path : string) : string :=
  nl +:+ header_line relative_path +:+ section_body relative_path.

Definition notice (relative_path : string) : string :=
  if path_exists fs (joined relative_path) then added_notice relative_path
  else skipped_notice relative_path.

Definition calls_of (relative_path : string) : list fs_call :=
  if path_exists fs (joined relative_path) then
    [CallExists (joined relative_path); CallOpenRead (joined relative_path)]
  else [CallExists (joined relative_path)].

Definition report_text : string :=
  title +:+ flatten (section_text <$> files_to_collect cfg).

Definition progress : list string := notice <$> files_to_collect cfg.

End Meaning.

(** The state after appending [s] to [outfile], printing [lines] and making
    the calls [cs]. *)
Definition advanced (outfile s : string) (lines : list string)
    (cs : list fs_call) (st : state) : state :=
  State (alter (λ t, t +:+ s) outfile (disk st))
        (console st ++ lines) (calls st ++ cs).

(** The text of the report file once the script has run from [st]. *)
Definition report_after (os_path_join : string → string → string)
    (cfg : config) (fs : filesystem) (st : state) : option string :=
  disk (main os_path_join cfg fs st).2 !! output_file os_path_join cfg.

(** The same filesystem with other text stored at [p]. *)
Definition with_text_at (p stored : string) (fs : filesystem) : filesystem :=
  {| path_exists := path_exists fs;
     open_r_error := open_r_error fs;
     read_error := read_error fs;
     file_text := λ q, if decide (q = p) then stored else file_text fs q;
     open_w_error := open_w_error fs |}.

(** The same filesystem with other answers to every attempt to read. *)
Definition with_reads (o r : string → option string) (t : string → string)
    (fs : filesystem) : filesystem :=
  {| path_exists := path_exists fs;
     open_r_error := o;
     read_error := r;
     file_text := t;
     open_w_error := open_w_error fs |}.

(** ** The report of the data model

    The specification describes the report as an ordered sequence of
    sections, each a relative path, a status and a content or error text.
    [DataModel] is that description; [sections] reads it off the
    filesystem, and the theorems relate it to what the script writes. *)

Module DataModel.

Inductive status : Type := Found | NotFound | ReadError.

Record section : Type := MkSection {
  sec_path : string;
  sec_status : status;
  sec_text : string
}.

Definition render (s : section) : string :=
  nl +:+ header_line (sec_path s) +:+
  match sec_status s with
  | Found => nl +:+ sec_text s +:+ nl
  | ReadError => nl +:+ error_line (sec_text s) +:+ nl
  | NotFound => not_found_line +:+ nl
  end.

Definition render_report (secs : list section) : string :=
  title +:+ flatten (render <$> secs).

End DataModel.

Import DataModel.

Definition section_of (os_path_join : string → string → string)
    (cfg : config) (fs : filesystem) (relative_path : string) : section :=
  if path_exists fs (joined os_path_join cfg relative_path) then
    match read_text fs (joined os_path_join cfg relative_path) with
    | Returned content => MkSection relative_path Found content
    | Raised e => MkSection relative_path ReadError e
    end
  else MkSection relative_path NotFound "".

Definition sections (os_path_join : string → string → string)
    (cfg : config) (fs : filesystem) : list section :=
  section_of os_path_join cfg fs <$> files_to_collect cfg.

(** The body the description of read failures asks for: the error marker
    followed by a description that is not empty. *)
Definition described_error_body (body : string) : Prop :=
  ∃ description, description ≠ "" ∧ body = nl +:+ error_line description +:+ nl.

(** ** Sample filesystems and states *)

Definition sample_cfg : config := Config "/proj" ["a.txt"; "missing.txt"].

(** /proj holds a.txt, which reads as hello, and nothing else. *)
Definition sample_fs : filesystem :=
  {| path_exists := λ p, bool_decide (p = "/proj/a.txt");
     open_r_error := λ _, None;
     read_error := λ _, None;
     file_text := λ p, if bool_decide (p = "/proj/a.txt") then "hello" else "";
     open_w_error := λ _, None |}.

(** As [sample_fs], with an unrelated file next to a.txt. *)
Definition crowded_fs : filesystem :=
  {| path_exists := λ p, bool_decide (p = "/proj/a.txt") || bool_decide (p = "/proj/b.txt");
     open_r_error := λ _, None;
     read_error := λ _, None;
     file_text := λ p, if bool_decide (p = "/proj/a.txt") then "hello" else "other";
     open_w_error := λ _, None |}.

(** a.txt is there but may not be opened. *)
Definition locked_fs : filesystem :=
  {| path_exists := λ p, bool_decide (p = "/proj/a.txt");
     open_r_error := λ p, if bool_decide (p = "/proj/a.txt")
                          then Some "[Errno 13] Permission denied: '/proj/a.txt'"
                          else None;
     read_error := λ _, None;
     file_text := λ p, if bool_decide (p = "/proj/a.txt") then "hello" else "";
     open_w_error := λ _, None |}.

(** a.txt is there and opens, but [read] raises an exception built without
    arguments, as [MemoryError] is when the text does not fit in memory;
    the string form of such an exception is empty. *)
Definition exhausted_fs : filesystem :=
  {| path_exists := λ p, bool_decide (p = "/proj/a.txt");
     open_r_error := λ _, None;
     read_error := λ p, if bool_decide (p = "/proj/a.txt") then Some "" else None;
     file_text := λ p, if bool_decide (p = "/proj/a.txt") then "hello" else "";
     open_w_error := λ _, None |}.

(** The report cannot be created. *)
Definition readonly_fs : filesystem :=
  {| path_exists := λ p, bool_decide (p = "/proj/a.txt");
     open_r_error := λ _, None;
     read_error := λ _, None;
     file_text := λ p, if bool_decide (p = "/proj/a.txt") then "hello" else "";
     open_w_error := λ _, Some "[Errno 13] Permission denied" |}.

Definition fresh_state : state := State ∅ [] [].

(** A report of an earlier run is still in place. *)
Definition stale_state : state :=
  State {[ "/proj/stripe_migration_report.txt" := "an older report" ]} [] [].

(** ** Reading the trace of filesystem calls *)

(** The paths tested with [os.path.exists], oldest first. *)
Definition exists_queries (cs : list fs_call) : list string :=
  omap (λ c, match c with CallExists p => Some p | _ => None end) cs.

(** The paths opened for reading, oldest first. *)
Definition read_opens (cs : list fs_call) : list string :=
  omap (λ c, match c with CallOpenRead p => Some p | _ => None end) cs.

(** The paths opened for writing, oldest first. *)
Definition write_opens (cs : list fs_call) : list string :=
  omap (λ c, match c with CallOpenWrite p => Some p | _ => None end) cs.

(** An older report and a file of notes are in place. *)
Definition busy_state : state :=
  State {[ "/proj/stripe_migration_report.txt" := "an older report";
           "/proj/notes.txt" := "keep me" ]} [] [].

(** a.txt holds hello followed by text that looks like the section of a
    missing file. *)
Definition forging_fs : filesystem :=
  {| path_exists := λ p, bool_decide (p = "/proj/a.txt");
     open_r_error := λ _, None;
     read_error := λ _, None;
     file_text := λ _, "hello" +:+ nl +:+ nl
                       +:+ "--- missing.txt ---" +:+ nl
                       +:+ "[FILE NOT FOUND]" +:+ nl;
     open_w_error := λ _, None |}.

(** ** Strings *)

Lemma append_cons (x : ascii) (a b : string) :
  String x a +:+ b = String x (a +:+ b).
Proof. reflexivity. Qed.

Lemma append_assoc (a b c : string) : (a +:+ b) +:+ c = a +:+ (b +:+ c).
Proof. induction a as [|x a IH]; [done |]. by rewrite !append_cons, IH. Qed.

Lemma append_empty_r (a : string) : a +:+ "" = a.
Proof. induction a as [|x a IH]; [done |]. by rewrite append_cons, IH. Qed.

Lemma flatten_app (l k : list string) : flatten (l ++ k) = flatten l +:+ flatten k.
Proof.
  induction l as [|x l IH]; [done |].
  change (x +:+ flatten (l ++ k) = (x +:+ flatten l) +:+ flatten k).
  by rewrite IH, append_assoc.
Qed.

Lemma length_append (a b : string) :
  String.length (a +:+ b) = String.length a + String.length b.
Proof.
  induction a as [|x a IH]; [done |]. rewrite append_cons; simpl. by rewrite IH.
Qed.

(** ** The runs of the loop body, the loop and the script *)

Section Runs.

Variable os_path_join : string → string → string.
Variable cfg : config.
Variable fs : filesystem.

Local Abbreviation text_of := (section_text os_path_join cfg fs).
Local Abbreviation notice_of := (notice os_path_join cfg fs).
Local Abbreviation asked_of := (calls_of os_path_join cfg fs).
Local Abbreviation report_path := (output_file os_path_join cfg).

Lemma alter_append_twice (outfile a b : string) (d : gmap string string) :
  alter (λ t, t +:+ b) outfile (alter (λ t, t +:+ a) outfile d)
  = alter (λ t, t +:+ (a +:+ b)) outfile d.
Proof.
  rewrite alter_alter_eq. apply alter_ext. intros t _. simpl.
  apply append_assoc.
Qed.

Lemma advanced_twice outfile a b l1 l2 c1 c2 st :
  advanced outfile b l2 c2 (advanced outfile a l1 c1 st)
  = advanced outfile (a +:+ b) (l1 ++ l2) (c1 ++ c2) st.
Proof.
  unfold advanced; simpl.
  by rewrite alter_append_twice, <- !app_assoc.
Qed.

Lemma advanced_nothing outfile st : advanced outfile "" [] [] st = st.
Proof.
  destruct st as [d c k]. unfold advanced; simpl.
  rewrite !app_nil_r. f_equal.
  rewrite <- (alter_id (λ t, t +:+ "") d outfile) at 2; [done |].
  intros t _. apply append_empty_r.
Qed.

Lemma alter_append_eq (outfile a b : string) (d : gmap string string) :
  a = b → alter (λ t, t +:+ a) outfile d = alter (λ t, t +:+ b) outfile d.
Proof. by intros ->. Qed.

Lemma collect_one_run outfile relative_path st :
  collect_one os_path_join cfg fs outfile relative_path st
  = (Returned tt,
     advanced outfile (text_of relative_path) [notice_of relative_path]
              (asked_of relative_path) st).
Proof.
  unfold collect_one, section_text, section_body, notice,
    calls_of, read_text, joined, advanced.
  unfold mbind, M_bind, os_path_exists, try_except, open_r, read, write,
    print, log; simpl.
  destruct (path_exists fs _); simpl;
    [ destruct (open_r_error fs _); simpl;
      [| destruct (read_error fs _); simpl ] |];
    rewrite !alter_append_twice, <- ?app_assoc; simpl;
    f_equal; f_equal; apply alter_append_eq;
    unfold error_line, not_found_line, header_line;
    by rewrite ?append_assoc.
Qed.

Lemma for_each_run outfile (paths : list string) st :
  for_each paths (collect_one os_path_join cfg fs outfile) st
  = (Returned tt,
     advanced outfile (flatten (text_of <$> paths)) (notice_of <$> paths)
              (concat (asked_of <$> paths)) st).
Proof.
  revert st. induction paths as [|p paths IH]; intros st; simpl.
  - unfold mret, M_ret. by rewrite advanced_nothing.
  - unfold mbind, M_bind. rewrite collect_one_run, IH.
    by rewrite advanced_twice.
Qed.

Local Abbreviation whole_text := (report_text os_path_join cfg fs).
Local Abbreviation notices := (progress os_path_join cfg fs).

(** The report could be opened: the script runs to its last line. *)
Lemma main_run_opened st :
  open_w_error fs report_path = None →
  main os_path_join cfg fs st
  = (Returned tt,
     State (<[report_path := whole_text]> (disk st))
           (console st ++ "🔍 Starting file collection..." :: notices
              ++ [nl +:+ "🎉 File collection complete!";
                  "   All contents saved to: " +:+ report_path])
           (calls st ++ CallOpenWrite report_path
              :: concat (asked_of <$> files_to_collect cfg))).
Proof.
  intros Hopen. unfold main, mbind, M_bind, print, open_w, write; simpl.
  fold (output_file os_path_join cfg). rewrite Hopen, for_each_run. unfold advanced; simpl.
  rewrite alter_append_twice, alter_insert_eq.
  by rewrite <- !app_assoc.
Qed.

(** The report could not be opened: the exception leaves the script. *)
Lemma main_run_fatal st msg :
  open_w_error fs report_path = Some msg →
  main os_path_join cfg fs st
  = (Raised msg,
     State (disk st)
           (console st ++ ["🔍 Starting file collection..."])
           (calls st ++ [CallOpenWrite report_path])).
Proof.
  intros Hopen. unfold main, mbind, M_bind, print, open_w, log; simpl.
  fold (output_file os_path_join cfg). by rewrite Hopen.
Qed.

End Runs.

(** ** The report file after a run *)

Section Report.

Variable os_path_join : string → string → string.
Variable cfg : config.
Variable fs : filesystem.

Local Abbreviation joined := (joined os_path_join cfg).
Local Abbreviation output_file := (output_file os_path_join cfg).

Lemma report_after_opened st :
  open_w_error fs output_file = None →
  report_after os_path_join cfg fs st = Some (report_text os_path_join cfg fs).
Proof.
  intros Hopen. unfold report_after.
  rewrite main_run_opened by done. simpl. apply lookup_insert_eq.
Qed.

Lemma report_text_split (before : list string) p (after : list string) :
  files_to_collect cfg = (before ++ p :: after)%list →
  report_text os_path_join cfg fs
  = title +:+ flatten (section_text os_path_join cfg fs <$> before)
      +:+ section_text os_path_join cfg fs p
      +:+ flatten (section_text os_path_join cfg fs <$> after).
Proof.
  intros Hfiles. unfold report_text. rewrite Hfiles.
  by rewrite fmap_app, flatten_app.
Qed.

Lemma render_section_of p :
  render (section_of os_path_join cfg fs p) = section_text os_path_join cfg fs p.
Proof.
  unfold render, section_of, section_text, section_body.
  destruct (path_exists fs _); [| done].
  by destruct (read_text fs _).
Qed.

Lemma sec_path_section_of p : sec_path (section_of os_path_join cfg fs p) = p.
Proof.
  unfold section_of. destruct (path_exists fs _); [| done].
  by destruct (read_text fs _).
Qed.

Lemma calls_of_reads_existing p q :
  CallOpenRead q ∈ calls_of os_path_join cfg fs p → path_exists fs q = true.
Proof.
  unfold calls_of. destruct (path_exists fs (joined p)) eqn:Hp.
  - rewrite !elem_of_cons, elem_of_nil. intros [H | [H | []]]; congruence.
  - rewrite elem_of_cons, elem_of_nil. intros [H | []]; congruence.
Qed.

Lemma reads_only_existing (paths : list string) q :
  CallOpenRead q ∈ concat (calls_of os_path_join cfg fs <$> paths) →
  path_exists fs q = true.
Proof.
  induction paths as [|p paths IH]; simpl.
  - by rewrite elem_of_nil.
  - rewrite elem_of_app. intros [H | H]; eauto using calls_of_reads_existing.
Qed.

End Report.

Lemma not_found_is_not_error e : not_found_line ≠ error_line e.
Proof. unfold not_found_line, error_line. intros H. by inversion H. Qed.

Lemma added_is_not_skipped p q : added_notice p ≠ skipped_notice q.
Proof. unfold added_notice, skipped_notice. intros H. by inversion H. Qed.

(** ** Properties of a run *)

(** C1.  Whatever the configuration and the filesystem, the report the
    script writes is the title followed by one section per entry of the
    list of relative paths, in the order of the list: the text is the
    rendering of a sequence of sections that has the length of the list and
    names its paths in order, each section being the one of its own path
    whether that path exists, is readable, or neither. *)
Theorem one_section_per_listed_path os_path_join cfg fs st :
  open_w_error fs (output_file os_path_join cfg) = None →
  report_after os_path_join cfg fs st
    = Some (render_report (sections os_path_join cfg fs))
  ∧ length (sections os_path_join cfg fs) = length (files_to_collect cfg)
  ∧ sec_path <$> sections os_path_join cfg fs = files_to_collect cfg
  ∧ ∀ i p, files_to_collect cfg !! i = Some p →
      sections os_path_join cfg fs !! i = Some (section_of os_path_join cfg fs p).
Proof.
  intros Hopen. unfold sections. split_and!.
  - rewrite report_after_opened by done. f_equal.
    unfold render_report, report_text. f_equal. f_equal.
    rewrite <- list_fmap_compose. apply list_fmap_ext.
    intros i p _. simpl. by rewrite render_section_of.
  - by rewrite length_fmap.
  - rewrite <- list_fmap_compose.
    rewrite <- (list_fmap_id (files_to_collect cfg)) at 2.
    apply list_fmap_ext. intros i p _. simpl. apply sec_path_section_of.
  - intros i p Hi. by rewrite list_lookup_fmap, Hi.
Qed.

Lemma one_section_per_listed_path_witness :
  open_w_error sample_fs (output_file posix_join shipped) = None
  ∧ (report_after posix_join shipped sample_fs fresh_state
       = Some (render_report (sections posix_join shipped sample_fs))
     ∧ length (sections posix_join shipped sample_fs)
       = length (files_to_collect shipped)
     ∧ sec_path <$> sections posix_join shipped sample_fs
       = files_to_collect shipped
     ∧ ∀ i p, files_to_collect shipped !! i = Some p →
         sections posix_join shipped sample_fs !! i
         = Some (section_of posix_join shipped sample_fs p)).
Proof.
  split; [reflexivity |].
  apply (one_section_per_listed_path posix_join shipped sample_fs fresh_state).
  reflexivity.
Defined.

(** C2.  With a root that holds a.txt reading as hello and no missing.txt,
    and the list a.txt, missing.txt, the report file is the title line, a
    blank line, a blank line, the header of a.txt, a blank line, hello, a
    blank line, the header of missing.txt, the not-found marker and a blank
    line, and nothing else. *)
Theorem end_to_end_report os_path_join root fs st :
  let cfg := Config root ["a.txt"; "missing.txt"] in
  open_w_error fs (output_file os_path_join cfg) = None →
  path_exists fs (os_path_join root "a.txt") = true →
  read_text fs (os_path_join root "a.txt") = Returned "hello" →
  path_exists fs (os_path_join root "missing.txt") = false →
  report_after os_path_join cfg fs st
  = Some ("=== Stripe Migration Report ===" +:+ nl
          +:+ nl
          +:+ nl
          +:+ "--- a.txt ---" +:+ nl
          +:+ nl
          +:+ "hello" +:+ nl
          +:+ nl
          +:+ "--- missing.txt ---" +:+ nl
          +:+ "[FILE NOT FOUND]" +:+ nl
          +:+ nl).
Proof.
  intros cfg Hopen Ha Hhello Hmissing.
  rewrite report_after_opened by done. f_equal.
  unfold report_text, section_text, section_body, joined; simpl.
  by rewrite Ha, Hhello, Hmissing.
Qed.

Lemma end_to_end_report_witness :
  open_w_error sample_fs (output_file posix_join sample_cfg) = None
  ∧ path_exists sample_fs (posix_join "/proj" "a.txt") = true
  ∧ read_text sample_fs (posix_join "/proj" "a.txt") = Returned "hello"
  ∧ path_exists sample_fs (posix_join "/proj" "missing.txt") = false
  ∧ report_after posix_join sample_cfg sample_fs stale_state
    = Some ("=== Stripe Migration Report ===" +:+ nl
            +:+ nl
            +:+ nl
            +:+ "--- a.txt ---" +:+ nl
            +:+ nl
            +:+ "hello" +:+ nl
            +:+ nl
            +:+ "--- missing.txt ---" +:+ nl
            +:+ "[FILE NOT FOUND]" +:+ nl
            +:+ nl).
Proof.
  split_and!; [reflexivity .. |].
  apply (end_to_end_report posix_join "/proj" sample_fs stale_state);
    reflexivity.
Defined.

(** C3.  A listed path that exists and reads as UTF-8 text gets a section
    made of a blank line, its header line, a blank line, the text of the
    file exactly as decoded, and a newline that closes the section; the
    sections of the paths before it precede it and those of the paths after
    it follow it. *)
Theorem readable_file_section os_path_join cfg fs st
    (before : list string) p (after : list string) content :
  files_to_collect cfg = (before ++ p :: after)%list →
  open_w_error fs (output_file os_path_join cfg) = None →
  path_exists fs (joined os_path_join cfg p) = true →
  read_text fs (joined os_path_join cfg p) = Returned content →
  report_after os_path_join cfg fs st
  = Some (title
          +:+ flatten (section_text os_path_join cfg fs <$> before)
          +:+ (nl +:+ header_line p +:+ nl +:+ content +:+ nl)
          +:+ flatten (section_text os_path_join cfg fs <$> after)).
Proof.
  intros Hfiles Hopen Hp Hread.
  rewrite report_after_opened by done. f_equal.
  rewrite (report_text_split _ _ _ before p after) by done.
  unfold section_text at 2, section_body. by rewrite Hp, Hread.
Qed.

Lemma readable_file_section_witness :
  files_to_collect sample_cfg = ([] ++ "a.txt" :: ["missing.txt"])%list
  ∧ open_w_error sample_fs (output_file posix_join sample_cfg) = None
  ∧ path_exists sample_fs (joined posix_join sample_cfg "a.txt") = true
  ∧ read_text sample_fs (joined posix_join sample_cfg "a.txt") = Returned "hello"
  ∧ report_after posix_join sample_cfg sample_fs fresh_state
    = Some (title
            +:+ flatten (section_text posix_join sample_cfg sample_fs <$> [])
            +:+ (nl +:+ header_line "a.txt" +:+ nl +:+ "hello" +:+ nl)
            +:+ flatten (section_text posix_join sample_cfg sample_fs
                           <$> ["missing.txt"])).
Proof.
  split_and!; [reflexivity .. |].
  apply (readable_file_section posix_join sample_cfg sample_fs fresh_state
           [] "a.txt" ["missing.txt"] "hello"); reflexivity.
Defined.

(** C4.  A listed path that does not exist gets a section whose header line
    is followed by the line [FILE NOT FOUND] and a blank line and nothing
    else; the run never opens that path for reading; the not-found line is
    not the error line of any read failure; and had the path existed and
    been unreadable, the body of its section would have been a different
    one. *)
Theorem missing_file_section os_path_join cfg fs st
    (before : list string) p (after : list string) :
  files_to_collect cfg = (before ++ p :: after)%list →
  open_w_error fs (output_file os_path_join cfg) = None →
  path_exists fs (joined os_path_join cfg p) = false →
  report_after os_path_join cfg fs st
  = Some (title
          +:+ flatten (section_text os_path_join cfg fs <$> before)
          +:+ (nl +:+ header_line p +:+ "[FILE NOT FOUND]" +:+ nl +:+ nl)
          +:+ flatten (section_text os_path_join cfg fs <$> after))
  ∧ (∃ made : list fs_call,
       calls (main os_path_join cfg fs st).2 = (calls st ++ made)%list
       ∧ CallOpenRead (joined os_path_join cfg p) ∉ made)
  ∧ (∀ e, not_found_line ≠ error_line e)
  ∧ ∀ fs' e,
      path_exists fs' (joined os_path_join cfg p) = true →
      read_text fs' (joined os_path_join cfg p) = Raised e →
      section_body os_path_join cfg fs' p ≠ section_body os_path_join cfg fs p.
Proof.
  intros Hfiles Hopen Hp. split_and!.
  - rewrite report_after_opened by done. f_equal.
    rewrite (report_text_split _ _ _ before p after) by done.
    unfold section_text at 2, section_body. rewrite Hp.
    unfold not_found_line. by rewrite ?append_assoc.
  - rewrite main_run_opened by done. simpl. eexists. split; [done |].
    rewrite elem_of_cons. intros [H | H]; [done |].
    apply reads_only_existing in H. congruence.
  - apply not_found_is_not_error.
  - intros fs' e Hp' Hread. unfold section_body. rewrite Hp, Hp', Hread.
    unfold not_found_line, error_line. intros H. by inversion H.
Qed.

Lemma missing_file_section_witness :
  files_to_collect sample_cfg = (["a.txt"] ++ "missing.txt" :: [])%list
  ∧ open_w_error sample_fs (output_file posix_join sample_cfg) = None
  ∧ path_exists sample_fs (joined posix_join sample_cfg "missing.txt") = false
  ∧ (report_after posix_join sample_cfg sample_fs fresh_state
     = Some (title
             +:+ flatten (section_text posix_join sample_cfg sample_fs <$> ["a.txt"])
             +:+ (nl +:+ header_line "missing.txt" +:+ "[FILE NOT FOUND]" +:+ nl +:+ nl)
             +:+ flatten (section_text posix_join sample_cfg sample_fs <$> []))
     ∧ (∃ made : list fs_call,
          calls (main posix_join sample_cfg sample_fs fresh_state).2
          = (calls fresh_state ++ made)%list
          ∧ CallOpenRead (joined posix_join sample_cfg "missing.txt") ∉ made)
     ∧ (∀ e, not_found_line ≠ error_line e)
     ∧ ∀ fs' e,
         path_exists fs' (joined posix_join sample_cfg "missing.txt") = true →
         read_text fs' (joined posix_join sample_cfg "missing.txt") = Raised e →
         section_body posix_join sample_cfg fs' "missing.txt"
         ≠ section_body posix_join sample_cfg sample_fs "missing.txt").
Proof.
  do 3 (split; [reflexivity |]).
  apply (missing_file_section posix_join sample_cfg sample_fs fresh_state
           ["a.txt"] "missing.txt" []); reflexivity.
Defined.

Lemma append_inj_r (a b c : string) : a +:+ c = b +:+ c → a = b.
Proof.
  revert b. induction a as [|x a IH]; intros [|y b] H.
  - done.
  - apply (f_equal String.length) in H.
    rewrite !length_append in H; simpl in H. lia.
  - apply (f_equal String.length) in H.
    rewrite !length_append in H; simpl in H. lia.
  - rewrite !append_cons in H. injection H as -> H. f_equal. by apply IH.
Qed.

Lemma error_line_inj (d e : string) : error_line d = error_line e → d = e.
Proof.
  unfold error_line. intros H.
  apply (inj (String.append _)) in H. by apply append_inj_r in H.
Qed.

(** C5, as stated, fails.  In [exhausted_fs] the file a.txt exists and
    reading it raises an exception whose string form is empty; the section
    of a.txt then holds the error marker with nothing after it, so its body
    is not the marker followed by a description that is not empty. *)
Lemma error_description_can_be_empty :
  path_exists exhausted_fs (joined posix_join sample_cfg "a.txt") = true
  ∧ read_text exhausted_fs (joined posix_join sample_cfg "a.txt") = Raised ""
  ∧ report_after posix_join sample_cfg exhausted_fs fresh_state
    = Some ("=== Stripe Migration Report ===" +:+ nl
            +:+ nl
            +:+ nl
            +:+ "--- a.txt ---" +:+ nl
            +:+ nl
            +:+ "[ERROR READING FILE]: " +:+ nl
            +:+ nl
            +:+ nl
            +:+ "--- missing.txt ---" +:+ nl
            +:+ "[FILE NOT FOUND]" +:+ nl
            +:+ nl)
  ∧ ¬ described_error_body (section_body posix_join sample_cfg exhausted_fs "a.txt").
Proof.
  split_and!; [reflexivity .. |].
  intros (d & Hd & Hbody). apply Hd.
  change (section_body posix_join sample_cfg exhausted_fs "a.txt")
    with (nl +:+ error_line "" +:+ nl) in Hbody.
  apply (inj (String.append _)) in Hbody.
  apply append_inj_r in Hbody. symmetry. by apply error_line_inj.
Qed.

(** C5, amended.  A listed path that exists and whose read raises an
    exception gets a section whose header line is followed by a blank line,
    the line made of the error marker and the string form of the exception,
    whatever it is, and a blank line; the exception does not leave the
    script, which returns normally, writes the section of every later path
    and prints the progress line of every later path. *)
Theorem failed_read_section os_path_join cfg fs st
    (before : list string) p (after : list string) e :
  files_to_collect cfg = (before ++ p :: after)%list →
  open_w_error fs (output_file os_path_join cfg) = None →
  path_exists fs (joined os_path_join cfg p) = true →
  read_text fs (joined os_path_join cfg p) = Raised e →
  (main os_path_join cfg fs st).1 = Returned tt
  ∧ report_after os_path_join cfg fs st
    = Some (title
            +:+ flatten (section_text os_path_join cfg fs <$> before)
            +:+ (nl +:+ header_line p +:+ nl
                 +:+ "[ERROR READING FILE]: " +:+ e +:+ nl +:+ nl)
            +:+ flatten (section_text os_path_join cfg fs <$> after))
  ∧ console (main os_path_join cfg fs st).2
    = (console st
       ++ "🔍 Starting file collection..."
       :: (notice os_path_join cfg fs <$> before)
       ++ added_notice p
       :: (notice os_path_join cfg fs <$> after)
       ++ [nl +:+ "🎉 File collection complete!";
           "   All contents saved to: " +:+ output_file os_path_join cfg])%list.
Proof.
  intros Hfiles Hopen Hp Hread. split_and!.
  - by rewrite main_run_opened.
  - rewrite report_after_opened by done. f_equal.
    rewrite (report_text_split _ _ _ before p after) by done.
    unfold section_text at 2, section_body. rewrite Hp, Hread.
    unfold error_line. by rewrite ?append_assoc.
  - rewrite main_run_opened by done. simpl. unfold progress.
    rewrite Hfiles, fmap_app, fmap_cons. unfold notice at 2. rewrite Hp.
    by rewrite <- !app_assoc.
Qed.

Lemma failed_read_section_witness :
  files_to_collect sample_cfg = ([] ++ "a.txt" :: ["missing.txt"])%list
  ∧ open_w_error locked_fs (output_file posix_join sample_cfg) = None
  ∧ path_exists locked_fs (joined posix_join sample_cfg "a.txt") = true
  ∧ read_text locked_fs (joined posix_join sample_cfg "a.txt")
    = Raised "[Errno 13] Permission denied: '/proj/a.txt'"
  ∧ ((main posix_join sample_cfg locked_fs fresh_state).1 = Returned tt
     ∧ report_after posix_join sample_cfg locked_fs fresh_state
       = Some (title
               +:+ flatten (section_text posix_join sample_cfg locked_fs <$> [])
               +:+ (nl +:+ header_line "a.txt" +:+ nl
                    +:+ "[ERROR READING FILE]: "
                    +:+ "[Errno 13] Permission denied: '/proj/a.txt'"
                    +:+ nl +:+ nl)
               +:+ flatten (section_text posix_join sample_cfg locked_fs
                              <$> ["missing.txt"]))
     ∧ console (main posix_join sample_cfg locked_fs fresh_state).2
       = (console fresh_state
          ++ "🔍 Starting file collection..."
          :: (notice posix_join sample_cfg locked_fs <$> [])
          ++ added_notice "a.txt"
          :: (notice posix_join sample_cfg locked_fs <$> ["missing.txt"])
          ++ [nl +:+ "🎉 File collection complete!";
              "   All contents saved to: "
              +:+ output_file posix_join sample_cfg])%list).
Proof.
  do 4 (split; [reflexivity |]).
  apply (failed_read_section posix_join sample_cfg locked_fs fresh_state
           [] "a.txt" ["missing.txt"]); reflexivity.
Defined.


(** C7.  Between the opening and the closing banners the console shows one
    line per listed path, in order: the success notice of the path exactly
    when the joined path exists, the not-found warning exactly when it does
    not; and replacing every answer the filesystem gives to reads by any
    other leaves the console as it is, so a read that fails shows as a
    success. *)
Theorem console_follows_existence os_path_join cfg fs st :
  open_w_error fs (output_file os_path_join cfg) = None →
  ∃ lines : list string,
    console (main os_path_join cfg fs st).2
    = (console st
       ++ "🔍 Starting file collection..."
       :: lines
       ++ [nl +:+ "🎉 File collection complete!";
           "   All contents saved to: " +:+ output_file os_path_join cfg])%list
    ∧ Forall2
        (λ p line,
           (line = added_notice p
            ↔ path_exists fs (joined os_path_join cfg p) = true)
           ∧ (line = skipped_notice p
              ↔ path_exists fs (joined os_path_join cfg p) = false))
        (files_to_collect cfg) lines
    ∧ ∀ o r t,
        console (main os_path_join cfg (with_reads o r t fs) st).2
        = console (main os_path_join cfg fs st).2.
Proof.
  intros Hopen. exists (progress os_path_join cfg fs). split_and!.
  - by rewrite main_run_opened.
  - unfold progress. apply Forall2_fmap_r, Forall_Forall2_diag, Forall_forall.
    intros p _. simpl. unfold notice.
    pose proof (added_is_not_skipped p p) as Hne.
    destruct (path_exists fs _); split; split; congruence.
  - intros o r t. by rewrite !main_run_opened.
Qed.

Lemma console_follows_existence_witness :
  open_w_error locked_fs (output_file posix_join sample_cfg) = None
  ∧ ∃ lines : list string,
      console (main posix_join sample_cfg locked_fs fresh_state).2
      = (console fresh_state
         ++ "🔍 Starting file collection..."
         :: lines
         ++ [nl +:+ "🎉 File collection complete!";
             "   All contents saved to: " +:+ output_file posix_join sample_cfg])%list
      ∧ Forall2
          (λ p line,
             (line = added_notice p
              ↔ path_exists locked_fs (joined posix_join sample_cfg p) = true)
             ∧ (line = skipped_notice p
                ↔ path_exists locked_fs (joined posix_join sample_cfg p) = false))
          (files_to_collect sample_cfg) lines
      ∧ ∀ o r t,
          console (main posix_join sample_cfg (with_reads o r t locked_fs) fresh_state).2
          = console (main posix_join sample_cfg locked_fs fresh_state).2.
Proof.
  split; [reflexivity |].
  apply (console_follows_existence posix_join sample_cfg locked_fs fresh_state).
  reflexivity.
Defined.

Lemma rerun_same_disk os_path_join cfg fs st :
  disk (main os_path_join cfg fs (main os_path_join cfg fs st).2).2
  = disk (main os_path_join cfg fs st).2.
Proof.
  destruct (open_w_error fs (output_file os_path_join cfg)) as [msg|] eqn:Hopen.
  - by rewrite !(main_run_fatal _ _ _ _ msg).
  - rewrite !main_run_opened by done. simpl. apply insert_insert_eq.
Qed.

Lemma report_text_not_doubled os_path_join cfg fs :
  report_text os_path_join cfg fs
  ≠ report_text os_path_join cfg fs +:+ report_text os_path_join cfg fs.
Proof.
  intros H. apply (f_equal String.length) in H.
  rewrite length_append in H. unfold report_text in H.
  rewrite length_append in H. change (String.length title) with 33 in H. lia.
Qed.

(** C8.  When the script is run a second time on the same filesystem, right
    after a first run, the report file ends up with the text the first run
    left: the second run replaces that text and does not add to it.  The
    text a run leaves does not depend on what the report file, or any other
    part of the starting state, held before. *)
Theorem rerun_overwrites os_path_join cfg fs st st' :
  open_w_error fs (output_file os_path_join cfg) = None →
  let first := (main os_path_join cfg fs st).2 in
  let second := (main os_path_join cfg fs first).2 in
  disk second = disk first
  ∧ report_after os_path_join cfg fs first = report_after os_path_join cfg fs st
  ∧ (∀ t, report_after os_path_join cfg fs st = Some t →
          report_after os_path_join cfg fs first ≠ Some (t +:+ t))
  ∧ report_after os_path_join cfg fs st' = report_after os_path_join cfg fs st.
Proof.
  intros Hopen first second. split_and!.
  - apply rerun_same_disk.
  - by rewrite !report_after_opened.
  - intros t. rewrite !report_after_opened by done.
    intros [= <-] H. apply (report_text_not_doubled os_path_join cfg fs).
    congruence.
  - by rewrite !report_after_opened.
Qed.

Lemma rerun_overwrites_witness :
  open_w_error sample_fs (output_file posix_join sample_cfg) = None
  ∧ (let first := (main posix_join sample_cfg sample_fs stale_state).2 in
     let second := (main posix_join sample_cfg sample_fs first).2 in
     disk second = disk first
     ∧ report_after posix_join sample_cfg sample_fs first
       = report_after posix_join sample_cfg sample_fs stale_state
     ∧ (∀ t, report_after posix_join sample_cfg sample_fs stale_state = Some t →
             report_after posix_join sample_cfg sample_fs first ≠ Some (t +:+ t))
     ∧ report_after posix_join sample_cfg sample_fs fresh_state
       = report_after posix_join sample_cfg sample_fs stale_state).
Proof.
  split; [reflexivity |].
  apply (rerun_overwrites posix_join sample_cfg sample_fs stale_state fresh_state).
  reflexivity.
Defined.

Lemma section_text_with_text_at os_path_join cfg fs q stored e r :
  read_text fs q = Raised e →
  section_text os_path_join cfg (with_text_at q stored fs) r
  = section_text os_path_join cfg fs r.
Proof.
  intros Hq. unfold section_text, section_body. f_equal. f_equal. simpl.
  destruct (path_exists fs _); [| done].
  unfold read_text in *; simpl.
  destruct (open_r_error fs (joined os_path_join cfg r)) eqn:Ho; [done |].
  destruct (read_error fs (joined os_path_join cfg r)) eqn:Hr; [done |].
  case_decide as Heq; [| done].
  rewrite <- Heq, Ho, Hr in Hq. discriminate.
Qed.

(** C9.  When the read of a listed path that exists raises, the section of
    that path is its header line, a blank line, the error line and a blank
    line, with no text of the file in it: whatever text is stored at the
    path, the report is the same. *)
Theorem failed_read_writes_no_content os_path_join cfg fs st
    (before : list string) p (after : list string) e :
  files_to_collect cfg = (before ++ p :: after)%list →
  open_w_error fs (output_file os_path_join cfg) = None →
  path_exists fs (joined os_path_join cfg p) = true →
  read_text fs (joined os_path_join cfg p) = Raised e →
  report_after os_path_join cfg fs st
  = Some (title
          +:+ flatten (section_text os_path_join cfg fs <$> before)
          +:+ (nl +:+ header_line p +:+ nl +:+ error_line e +:+ nl)
          +:+ flatten (section_text os_path_join cfg fs <$> after))
  ∧ ∀ stored,
      report_after os_path_join cfg
        (with_text_at (joined os_path_join cfg p) stored fs) st
      = report_after os_path_join cfg fs st.
Proof.
  intros Hfiles Hopen Hp Hread. split.
  - rewrite report_after_opened by done. f_equal.
    rewrite (report_text_split _ _ _ before p after) by done.
    unfold section_text at 2, section_body. by rewrite Hp, Hread.
  - intros stored. rewrite !report_after_opened by done. f_equal.
    unfold report_text. f_equal. f_equal. apply list_fmap_ext.
    intros i r _. by apply section_text_with_text_at with e.
Qed.

Lemma failed_read_writes_no_content_witness :
  files_to_collect sample_cfg = ([] ++ "a.txt" :: ["missing.txt"])%list
  ∧ open_w_error locked_fs (output_file posix_join sample_cfg) = None
  ∧ path_exists locked_fs (joined posix_join sample_cfg "a.txt") = true
  ∧ read_text locked_fs (joined posix_join sample_cfg "a.txt")
    = Raised "[Errno 13] Permission denied: '/proj/a.txt'"
  ∧ (report_after posix_join sample_cfg locked_fs fresh_state
     = Some (title
             +:+ flatten (section_text posix_join sample_cfg locked_fs <$> [])
             +:+ (nl +:+ header_line "a.txt" +:+ nl
                  +:+ error_line "[Errno 13] Permission denied: '/proj/a.txt'"
                  +:+ nl)
             +:+ flatten (section_text posix_join sample_cfg locked_fs
                            <$> ["missing.txt"]))
     ∧ ∀ stored,
         report_after posix_join sample_cfg
           (with_text_at (joined posix_join sample_cfg "a.txt") stored locked_fs)
           fresh_state
         = report_after posix_join sample_cfg locked_fs fresh_state).
Proof.
  do 4 (split; [reflexivity |]).
  apply (failed_read_writes_no_content posix_join sample_cfg locked_fs
           fresh_state [] "a.txt" ["missing.txt"]); reflexivity.
Defined.

Lemma section_text_agree os_path_join cfg fs1 fs2 p :
  path_exists fs1 (joined os_path_join cfg p)
  = path_exists fs2 (joined os_path_join cfg p) →
  (path_exists fs1 (joined os_path_join cfg p) = true →
   read_text fs1 (joined os_path_join cfg p)
   = read_text fs2 (joined os_path_join cfg p)) →
  section_text os_path_join cfg fs1 p = section_text os_path_join cfg fs2 p.
Proof.
  intros Hex Hread. unfold section_text, section_body. rewrite <- Hex.
  destruct (path_exists fs1 _); [| done]. by rewrite Hread.
Qed.

(** C10.  Two filesystems that give the same answer on the existence of
    every listed path and, for those that exist, the same outcome of
    reading them, lead to the same report text, whatever else the two
    filesystems hold and whatever the two starting states held, the earlier
    text of the report file included. *)
Theorem report_depends_on_listed_paths_only os_path_join cfg fs1 fs2 st1 st2 :
  open_w_error fs1 (output_file os_path_join cfg) = None →
  open_w_error fs2 (output_file os_path_join cfg) = None →
  (∀ p, p ∈ files_to_collect cfg →
     path_exists fs1 (joined os_path_join cfg p)
     = path_exists fs2 (joined os_path_join cfg p)
     ∧ (path_exists fs1 (joined os_path_join cfg p) = true →
        read_text fs1 (joined os_path_join cfg p)
        = read_text fs2 (joined os_path_join cfg p))) →
  report_after os_path_join cfg fs1 st1 = report_after os_path_join cfg fs2 st2.
Proof.
  intros Hopen1 Hopen2 Hagree. rewrite !report_after_opened by done. f_equal.
  unfold report_text. f_equal. f_equal. apply list_fmap_ext.
  intros i p Hi. apply list_elem_of_lookup_2, Hagree in Hi as [Hex Hread].
  by apply section_text_agree.
Qed.

Lemma report_depends_on_listed_paths_only_witness :
  open_w_error sample_fs (output_file posix_join sample_cfg) = None
  ∧ open_w_error crowded_fs (output_file posix_join sample_cfg) = None
  ∧ (∀ p, p ∈ files_to_collect sample_cfg →
       path_exists sample_fs (joined posix_join sample_cfg p)
       = path_exists crowded_fs (joined posix_join sample_cfg p)
       ∧ (path_exists sample_fs (joined posix_join sample_cfg p) = true →
          read_text sample_fs (joined posix_join sample_cfg p)
          = read_text crowded_fs (joined posix_join sample_cfg p)))
  ∧ report_after posix_join sample_cfg sample_fs fresh_state
    = report_after posix_join sample_cfg crowded_fs stale_state.
Proof.
  assert (∀ p, p ∈ files_to_collect sample_cfg →
       path_exists sample_fs (joined posix_join sample_cfg p)
       = path_exists crowded_fs (joined posix_join sample_cfg p)
       ∧ (path_exists sample_fs (joined posix_join sample_cfg p) = true →
          read_text sample_fs (joined posix_join sample_cfg p)
          = read_text crowded_fs (joined posix_join sample_cfg p))) as Hagree.
  { intros p Hp. simpl in Hp. rewrite !elem_of_cons, elem_of_nil in Hp.
    destruct Hp as [-> | [-> | []]]; (split; [reflexivity |]).
    - reflexivity.
    - intros H. vm_compute in H. discriminate H. }
  do 2 (split; [reflexivity |]). split; [exact Hagree |].
  apply (report_depends_on_listed_paths_only posix_join sample_cfg
           sample_fs crowded_fs fresh_state stale_state);
    [reflexivity | reflexivity | exact Hagree].
Defined.

(** A run that cannot create the report leaves an older report in place. *)
Example fatal_run_keeps_older_report :
  (main posix_join sample_cfg readonly_fs stale_state).1
  = Raised "[Errno 13] Permission denied"
  ∧ report_after posix_join sample_cfg readonly_fs stale_state
    = Some "an older report".
Proof. split; reflexivity. Qed.

(** ** Further properties of a run *)

(** X1.  A run writes to the report file only: every other file holds after
    the run the text it held before, whether the run ends normally or with
    the exception of the failed open. *)
Theorem other_files_untouched os_path_join cfg fs st q :
  q ≠ output_file os_path_join cfg →
  disk (main os_path_join cfg fs st).2 !! q = disk st !! q.
Proof.
  intros Hq.
  destruct (open_w_error fs (output_file os_path_join cfg)) as [msg|] eqn:Hopen.
  - by rewrite (main_run_fatal _ _ _ _ msg).
  - rewrite main_run_opened by done. simpl. by rewrite lookup_insert_ne.
Qed.

Lemma other_files_untouched_witness :
  "/proj/notes.txt" ≠ output_file posix_join sample_cfg
  ∧ disk (main posix_join sample_cfg sample_fs busy_state).2 !! "/proj/notes.txt"
    = disk busy_state !! "/proj/notes.txt".
Proof.
  assert ("/proj/notes.txt" ≠ output_file posix_join sample_cfg) as Hq.
  { intros H. vm_compute in H. discriminate H. }
  split; [exact Hq |].
  apply (other_files_untouched posix_join sample_cfg sample_fs busy_state).
  exact Hq.
Defined.

Lemma exists_queries_calls_of os_path_join cfg fs (paths : list string) :
  exists_queries (concat (calls_of os_path_join cfg fs <$> paths))
  = joined os_path_join cfg <$> paths.
Proof.
  unfold exists_queries. induction paths as [|p paths IH]; [done |].
  rewrite fmap_cons, concat_cons, omap_app, IH, fmap_cons.
  unfold calls_of. by destruct (path_exists fs _).
Qed.

Lemma read_opens_calls_of os_path_join cfg fs (paths : list string) :
  read_opens (concat (calls_of os_path_join cfg fs <$> paths))
  = joined os_path_join cfg
      <$> filter (λ p, path_exists fs (joined os_path_join cfg p) = true) paths.
Proof.
  unfold read_opens. induction paths as [|p paths IH]; [done |].
  rewrite fmap_cons, concat_cons, omap_app, IH. unfold calls_of.
  destruct (path_exists fs (joined os_path_join cfg p)) eqn:Hp.
  - by rewrite filter_cons_True.
  - rewrite filter_cons_False; [done |]. by rewrite Hp.
Qed.

Lemma write_opens_calls_of os_path_join cfg fs (paths : list string) :
  write_opens (concat (calls_of os_path_join cfg fs <$> paths)) = [].
Proof.
  unfold write_opens. induction paths as [|p paths IH]; [done |].
  rewrite fmap_cons, concat_cons, omap_app, IH. unfold calls_of.
  by destruct (path_exists fs _).
Qed.

(** X2.  A run that opens the report asks the filesystem for this and no
    more: it opens one file for writing, the report; it tests the existence
    of the joined path of every listed path, once each and in the order of
    the list; and it opens for reading the joined paths of the listed paths
    that exist, once each and in the order of the list. *)
Theorem filesystem_calls_of_a_run os_path_join cfg fs st :
  open_w_error fs (output_file os_path_join cfg) = None →
  ∃ made : list fs_call,
    calls (main os_path_join cfg fs st).2 = (calls st ++ made)%list
    ∧ write_opens made = [output_file os_path_join cfg]
    ∧ exists_queries made = joined os_path_join cfg <$> files_to_collect cfg
    ∧ read_opens made
      = joined os_path_join cfg
          <$> filter (λ p, path_exists fs (joined os_path_join cfg p) = true)
                     (files_to_collect cfg).
Proof.
  intros Hopen. rewrite main_run_opened by done. simpl.
  eexists. split; [done |]. split_and!.
  - change (output_file os_path_join cfg
            :: write_opens (concat (calls_of os_path_join cfg fs
                                      <$> files_to_collect cfg))
            = [output_file os_path_join cfg]).
    by rewrite write_opens_calls_of.
  - change (exists_queries (concat (calls_of os_path_join cfg fs
                                      <$> files_to_collect cfg))
            = joined os_path_join cfg <$> files_to_collect cfg).
    apply exists_queries_calls_of.
  - change (read_opens (concat (calls_of os_path_join cfg fs
                                  <$> files_to_collect cfg))
            = joined os_path_join cfg
                <$> filter (λ p, path_exists fs (joined os_path_join cfg p) = true)
                           (files_to_collect cfg)).
    apply read_opens_calls_of.
Qed.

Lemma filesystem_calls_of_a_run_witness :
  open_w_error sample_fs (output_file posix_join sample_cfg) = None
  ∧ ∃ made : list fs_call,
      calls (main posix_join sample_cfg sample_fs fresh_state).2
      = (calls fresh_state ++ made)%list
      ∧ write_opens made = [output_file posix_join sample_cfg]
      ∧ exists_queries made
        = joined posix_join sample_cfg <$> files_to_collect sample_cfg
      ∧ read_opens made
        = joined posix_join sample_cfg
            <$> filter (λ p, path_exists sample_fs
                               (joined posix_join sample_cfg p) = true)
                       (files_to_collect sample_cfg).
Proof.
  split; [reflexivity |].
  apply (filesystem_calls_of_a_run posix_join sample_cfg sample_fs fresh_state).
  reflexivity.
Defined.

(** X3.  With an empty list of paths a run that opens the report writes the
    title line and a blank line and nothing else, prints the opening banner
    and the two closing lines and nothing between them, and asks the
    filesystem for nothing but the report. *)
Theorem empty_list_run os_path_join cfg fs st :
  files_to_collect cfg = [] →
  open_w_error fs (output_file os_path_join cfg) = None →
  main os_path_join cfg fs st
  = (Returned tt,
     State (<[output_file os_path_join cfg
              := "=== Stripe Migration Report ===" +:+ nl +:+ nl]> (disk st))
           (console st
            ++ ["🔍 Starting file collection...";
                nl +:+ "🎉 File collection complete!";
                "   All contents saved to: " +:+ output_file os_path_join cfg])
           (calls st ++ [CallOpenWrite (output_file os_path_join cfg)])).
Proof.
  intros Hfiles Hopen. rewrite main_run_opened by done.
  unfold report_text, progress. rewrite Hfiles. simpl.
  by rewrite append_empty_r.
Qed.

Lemma empty_list_run_witness :
  files_to_collect (Config "/proj" []) = []
  ∧ open_w_error sample_fs (output_file posix_join (Config "/proj" [])) = None
  ∧ main posix_join (Config "/proj" []) sample_fs stale_state
    = (Returned tt,
       State (<[output_file posix_join (Config "/proj" [])
                := "=== Stripe Migration Report ===" +:+ nl +:+ nl]>
                (disk stale_state))
             (console stale_state
              ++ ["🔍 Starting file collection...";
                  nl +:+ "🎉 File collection complete!";
                  "   All contents saved to: "
                  +:+ output_file posix_join (Config "/proj" [])])
             (calls stale_state
              ++ [CallOpenWrite (output_file posix_join (Config "/proj" []))])).
Proof.
  do 2 (split; [reflexivity |]).
  apply (empty_list_run posix_join (Config "/proj" []) sample_fs stale_state);
    reflexivity.
Defined.

(** X4.  Listing more paths after the ones already listed leaves the text
    written for the earlier ones as it is: the report for the longer list
    is the report for the shorter list followed by the sections of the
    added paths. *)
Theorem listing_more_paths_appends os_path_join root fs st (l k : list string) :
  open_w_error fs (output_file os_path_join (Config root l)) = None →
  ∃ t,
    report_after os_path_join (Config root l) fs st = Some t
    ∧ report_after os_path_join (Config root (l ++ k)) fs st
      = Some (t +:+ flatten (section_text os_path_join (Config root k) fs <$> k)).
Proof.
  intros Hopen. exists (report_text os_path_join (Config root l) fs). split.
  - by apply report_after_opened.
  - rewrite report_after_opened by done. f_equal.
    unfold report_text; simpl.
    rewrite fmap_app, flatten_app. by rewrite append_assoc.
Qed.

Lemma listing_more_paths_appends_witness :
  open_w_error sample_fs (output_file posix_join (Config "/proj" ["a.txt"])) = None
  ∧ ∃ t,
      report_after posix_join (Config "/proj" ["a.txt"]) sample_fs fresh_state
      = Some t
      ∧ report_after posix_join (Config "/proj" (["a.txt"] ++ ["missing.txt"]))
          sample_fs fresh_state
        = Some (t +:+ flatten (section_text posix_join
                                 (Config "/proj" ["missing.txt"]) sample_fs
                                 <$> ["missing.txt"])).
Proof.
  split; [reflexivity |].
  apply (listing_more_paths_appends posix_join "/proj" sample_fs fresh_state
           ["a.txt"] ["missing.txt"]).
  reflexivity.
Defined.

Lemma section_text_ends_with_newline os_path_join cfg fs p :
  ∃ s, section_text os_path_join cfg fs p = s +:+ nl.
Proof.
  unfold section_text, section_body.
  destruct (path_exists fs _); [destruct (read_text fs _) as [content|e] |].
  - exists (nl +:+ header_line p +:+ nl +:+ content). by rewrite ?append_assoc.
  - exists (nl +:+ header_line p +:+ nl +:+ error_line e). by rewrite ?append_assoc.
  - exists (nl +:+ header_line p +:+ not_found_line). by rewrite ?append_assoc.
Qed.

Lemma sections_end_with_newline os_path_join cfg fs p (paths : list string) :
  ∃ s, flatten (section_text os_path_join cfg fs <$> p :: paths) = s +:+ nl.
Proof.
  revert p. induction paths as [|q paths IH]; intros p.
  - destruct (section_text_ends_with_newline os_path_join cfg fs p) as [s Hs].
    exists s. rewrite fmap_cons. simpl. by rewrite append_empty_r.
  - destruct (IH q) as [s Hs].
    exists (section_text os_path_join cfg fs p +:+ s).
    rewrite fmap_cons.
    change (section_text os_path_join cfg fs p
            +:+ flatten (section_text os_path_join cfg fs <$> q :: paths)
            = (section_text os_path_join cfg fs p +:+ s) +:+ nl).
    by rewrite Hs, append_assoc.
Qed.

(** X5.  Whatever is listed and whatever the files hold, the report starts
    with the title line and ends with a newline, also when the text of the
    last file does not. *)
Theorem report_starts_with_title_and_ends_with_newline os_path_join cfg fs st :
  open_w_error fs (output_file os_path_join cfg) = None →
  ∃ rest,
    report_after os_path_join cfg fs st
    = Some ("=== Stripe Migration Report ===" +:+ nl +:+ rest +:+ nl).
Proof.
  intros Hopen. rewrite report_after_opened by done. unfold report_text.
  destruct (files_to_collect cfg) as [|p paths].
  - exists "". by rewrite append_empty_r.
  - destruct (sections_end_with_newline os_path_join cfg fs p paths) as [s ->].
    exists (nl +:+ s). unfold title. by rewrite ?append_assoc.
Qed.

Lemma report_starts_with_title_and_ends_with_newline_witness :
  open_w_error sample_fs (output_file posix_join (Config "/proj" ["a.txt"])) = None
  ∧ ∃ rest,
      report_after posix_join (Config "/proj" ["a.txt"]) sample_fs fresh_state
      = Some ("=== Stripe Migration Report ===" +:+ nl +:+ rest +:+ nl).
Proof.
  split; [reflexivity |].
  apply (report_starts_with_title_and_ends_with_newline posix_join
           (Config "/proj" ["a.txt"]) sample_fs fresh_state).
  reflexivity.
Defined.

(** X6.  The text of a file is written as it is, with no escaping, so the
    report does not determine its sections: a file whose text ends with
    what looks like the section of a missing path gives, listed alone, the
    very report that the file without that ending gives when the missing
    path is listed after it. *)
Theorem file_text_can_pass_for_a_section os_path_join root fs1 fs2 st
    (a b content : string) :
  open_w_error fs1 (output_file os_path_join (Config root [a])) = None →
  open_w_error fs2 (output_file os_path_join (Config root [a; b])) = None →
  path_exists fs1 (os_path_join root a) = true →
  read_text fs1 (os_path_join root a)
  = Returned (content +:+ nl +:+ nl +:+ header_line b +:+ not_found_line) →
  path_exists fs2 (os_path_join root a) = true →
  read_text fs2 (os_path_join root a) = Returned content →
  path_exists fs2 (os_path_join root b) = false →
  report_after os_path_join (Config root [a]) fs1 st
  = report_after os_path_join (Config root [a; b]) fs2 st.
Proof.
  intros Hopen1 Hopen2 Ha1 Hread1 Ha2 Hread2 Hb2.
  rewrite !report_after_opened by done. f_equal.
  unfold report_text, section_text, section_body, joined; simpl.
  rewrite Ha1, Hread1, Ha2, Hread2, Hb2.
  change (flatten [] ) with "". by rewrite ?append_assoc, ?append_empty_r.
Qed.

Lemma file_text_can_pass_for_a_section_witness :
  open_w_error forging_fs (output_file posix_join (Config "/proj" ["a.txt"])) = None
  ∧ open_w_error sample_fs
      (output_file posix_join (Config "/proj" ["a.txt"; "missing.txt"])) = None
  ∧ path_exists forging_fs (posix_join "/proj" "a.txt") = true
  ∧ read_text forging_fs (posix_join "/proj" "a.txt")
    = Returned ("hello" +:+ nl +:+ nl
                +:+ header_line "missing.txt" +:+ not_found_line)
  ∧ path_exists sample_fs (posix_join "/proj" "a.txt") = true
  ∧ read_text sample_fs (posix_join "/proj" "a.txt") = Returned "hello"
  ∧ path_exists sample_fs (posix_join "/proj" "missing.txt") = false
  ∧ report_after posix_join (Config "/proj" ["a.txt"]) forging_fs fresh_state
    = report_after posix_join (Config "/proj" ["a.txt"; "missing.txt"])
        sample_fs fresh_state.
Proof.
  do 7 (split; [reflexivity |]).
  apply (file_text_can_pass_for_a_section posix_join "/proj" forging_fs
           sample_fs fresh_state "a.txt" "missing.txt" "hello"); reflexivity.
Defined.
